(** * Phone-number user lookup (src/config/search.js)

    A shallow embedding of the three exported functions of [search.js]
    ([findUserByPhoneNumber], [findUsersByPhoneNumbers],
    [getUserDetailsByPhoneNumber]) and of its command-line block, with the
    properties of the specification stated over it.

    The remote identity service is not part of the repository: it is a
    parameter of the development (a type [World] of remote states and the
    SDK entry point [getUserByPhoneNumber] acting on it).  [async]/[await]
    code is sequential, so it is embedded as explicit state passing.

    What is taken from the SDK's declarations: the promise of
    [getUserByPhoneNumber] resolves to a [UserRecord], which always has its
    [metadata] and [providerData], or rejects with an error object; and
    [admin.initializeApp], run when the module is loaded, has succeeded. *)

From Stdlib Require Import PrimFloat Ascii String.
From stdpp Require Import base option list strings.

Local Open Scope string_scope.
Local Open Scope list_scope.

(** ** JavaScript values *)

Module Js.

(** The values the code inspects: primitives and plain objects (property
    lists).  Numbers are IEEE doubles, as in JavaScript. *)
#[warnings="-register-all"]
Inductive Value : Type :=
| VUndefined
| VNull
| VBool (b : bool)
| VNumber (n : float)
| VString (s : string)
| VObject (props : list (string * Value)).

(** ToBoolean: [false], [0], [-0], [NaN], the empty string, [null] and
    [undefined] are falsy; everything else, every object included, is
    truthy. *)
Definition truthy (v : Value) : bool :=
  match v with
  | VUndefined | VNull => false
  | VBool b => b
  | VNumber n => negb (PrimFloat.eqb n 0%float || PrimFloat.is_nan n)
  | VString s => negb (String.eqb s "")
  | VObject _ => true
  end.

(** The [typeof] operator. *)
Definition typeof (v : Value) : string :=
  match v with
  | VUndefined => "undefined"
  | VNull => "object"
  | VBool _ => "boolean"
  | VNumber _ => "number"
  | VString _ => "string"
  | VObject _ => "object"
  end.

(** [a || b] *)
Definition or (a b : Value) : Value := if truthy a then a else b.

(** [a === s] for a string literal [s]. *)
Definition strict_eq_string (a : Value) (s : string) : bool :=
  match a with
  | VString t => String.eqb t s
  | _ => false
  end.

(** A thrown value.  The code only ever reads [.code] and [.message] of
    what it catches; both are [undefined] when the property is absent. *)
Record Error : Type := mkError { code : Value; message : Value }.

(** [new Error(msg)]: a message and no code. *)
Definition new_Error (msg : string) : Error :=
  {| code := VUndefined; message := VString msg |}.

(** [new TypeError(msg)], raised by the runtime itself. *)
Definition new_TypeError (msg : string) : Error :=
  {| code := VUndefined; message := VString msg |}.

(** A piece of a template literal: literal text or an interpolated value. *)
Inductive Piece : Type :=
| Lit (s : string)
| Interp (v : Value).

(** One argument of a [console.log] / [console.error] call. *)
Inductive Arg : Type :=
| AValue (v : Value)
| ATemplate (parts : list Piece).

End Js.

Import Js.

(** ** Records of the identity service's SDK *)

Module Sdk.

(** [UserMetadata]: the time stamps of an account. *)
Record UserMetadata : Type := mkUserMetadata {
  creationTime : Value;
  lastSignInTime : Value;
  lastRefreshTime : Value
}.

(** [UserInfo]: one linked provider identity. *)
Record UserInfo : Type := mkUserInfo {
  pi_uid : Value;
  pi_displayName : Value;
  pi_email : Value;
  pi_phoneNumber : Value;
  pi_photoURL : Value;
  pi_providerId : Value
}.

(** [UserRecord], as returned by [admin.auth().getUserByPhoneNumber].
    Optional properties hold [VUndefined] when they are absent. *)
Record UserRecord : Type := mkUserRecord {
  uid : Value;
  email : Value;
  phoneNumber : Value;
  displayName : Value;
  photoURL : Value;
  emailVerified : Value;
  disabled : Value;
  metadata : UserMetadata;
  customClaims : Value;
  providerData : list UserInfo
}.

(** The object literal built by [getUserDetailsByPhoneNumber]. *)
Record UserDetails : Type := mkUserDetails {
  d_uid : Value;
  d_email : Value;
  d_phoneNumber : Value;
  d_displayName : Value;
  d_photoURL : Value;
  d_emailVerified : Value;
  d_disabled : Value;
  d_metadata : UserMetadata;
  d_customClaims : Value;
  d_providerData : list UserInfo
}.

(** The object literal [{ found, notFound }] of the batch lookup. *)
Record BatchResult : Type := mkBatchResult {
  found : list UserRecord;
  notFound : list string
}.

(** How the promise returned by the SDK settles. *)
Inductive SdkResult : Type :=
| Resolved (userRecord : UserRecord)
| Rejected (error : Error).

End Sdk.

Import Sdk.

(** ** Observable events

    Console output, plus two ghost events that record control reaching a
    call: the remote call [admin.auth().getUserByPhoneNumber(p)] and the
    entry into [findUserByPhoneNumber(p)]. *)
Inductive Event : Type :=
| ConsoleLog (args : list Arg)
| ConsoleError (args : list Arg)
| SdkCall (p : Value)
| Invoke (p : Value).

(** ** The computation monad

    A computation runs from a state (the remote world and the events so
    far) to an outcome and a new state.  It returns, throws, or ends the
    process through [process.exit]. *)
Inductive Outcome (A : Type) : Type :=
| Ret (a : A)
| Throw (e : Error)
| Exit (status : Z).
Arguments Ret {A} a.
Arguments Throw {A} e.
Arguments Exit {A} status.

Module Search.

Section Program.

(** The remote identity service: its states, and the one SDK entry point
    the program calls. *)
Variable World : Type.
Variable getUserByPhoneNumber : Value -> World -> SdkResult * World.

Record State : Type := mkState {
  world : World;
  trace : list Event
}.

Definition M (A : Type) : Type := State -> Outcome A * State.

Definition ret {A} (a : A) : M A := fun s => (Ret a, s).

Definition bind {A B} (m : M A) (k : A -> M B) : M B :=
  fun s =>
    match m s with
    | (Ret a, s') => k a s'
    | (Throw e, s') => (Throw e, s')
    | (Exit c, s') => (Exit c, s')
    end.

Definition throw {A} (e : Error) : M A := fun s => (Throw e, s).

(** [try { body } catch (error) { handler }]: a thrown value is caught,
    [process.exit] is not. *)
Definition try_catch {A} (body : M A) (handler : Error -> M A) : M A :=
  fun s =>
    match body s with
    | (Throw e, s') => handler e s'
    | r => r
    end.

Definition emit (ev : Event) : M unit :=
  fun s => (Ret tt, {| world := world s; trace := trace s ++ [ev] |}).

Definition console_log (args : list Arg) : M unit := emit (ConsoleLog args).
Definition console_error (args : list Arg) : M unit := emit (ConsoleError args).

(** [process.exit(status)] does not return. *)
Definition process_exit {A} (status : Z) : M A := fun s => (Exit status, s).

(** [await admin.auth().getUserByPhoneNumber(p)] *)
Definition await_getUserByPhoneNumber (p : Value) : M UserRecord :=
  fun s =>
    let '(r, w') := getUserByPhoneNumber p (world s) in
    let s' := {| world := w'; trace := trace s ++ [SdkCall p] |} in
    match r with
    | Resolved u => (Ret u, s')
    | Rejected e => (Throw e, s')
    end.

(** [v.startsWith(prefix)]; a value without that method raises a
    [TypeError]. *)
Definition startsWith (v : Value) (pre : string) : M bool :=
  match v with
  | VString s => ret (String.prefix pre s)
  | _ => throw (new_TypeError "phoneNumber.startsWith is not a function")
  end.

(** stdpp's monad notations: [x ← m; k] and [m ;; k]. *)
#[export] Instance M_ret : MRet M := @ret.
#[export] Instance M_bind : MBind M := fun A B k m => bind m k.

(** ** findUserByPhoneNumber (search.js, lines 13-49) *)

Definition user_found_summary (userRecord : UserRecord) : Value :=
  VObject [ ("uid", uid userRecord);
            ("email", email userRecord);
            ("phoneNumber", Sdk.phoneNumber userRecord);
            ("displayName", displayName userRecord);
            ("emailVerified", emailVerified userRecord);
            ("disabled", disabled userRecord);
            ("creationTime", creationTime (metadata userRecord));
            ("lastSignInTime", lastSignInTime (metadata userRecord)) ].

(** [None] is JavaScript's [null]. *)
Definition findUserByPhoneNumber (phoneNumber : Value) : M (option UserRecord) :=
  emit (Invoke phoneNumber) ;;
  try_catch
    ((if negb (truthy phoneNumber) || negb (String.eqb (typeof phoneNumber) "string")
      then throw (new_Error "Phone number must be a non-empty string")
      else ret tt) ;;
     plus ← startsWith phoneNumber "+";
     (if negb plus
      then throw (new_Error "Phone number must be in E.164 format (e.g., +1234567890)")
      else ret tt) ;;
     userRecord ← await_getUserByPhoneNumber phoneNumber;
     console_log [AValue (VString "User found:"); AValue (user_found_summary userRecord)] ;;
     ret (Some userRecord))
    (fun error =>
       if strict_eq_string (code error) "auth/user-not-found"
       then
         console_log [ATemplate [Lit "No user found with phone number: "; Interp phoneNumber]] ;;
         ret None
       else
         console_error [AValue (VString "Error searching for user by phone number:");
                        AValue (message error)] ;;
         throw error).

(** ** findUsersByPhoneNumbers (search.js, lines 56-75)

    The [for ... of] loop, with the two arrays it pushes to as
    accumulators. *)
Fixpoint findUsers_loop (phoneNumbers : list string)
    (found : list UserRecord) (notFound : list string) : M BatchResult :=
  match phoneNumbers with
  | [] => ret {| found := found; notFound := notFound |}
  | phoneNumber :: rest =>
      acc ← try_catch
               (user ← findUserByPhoneNumber (VString phoneNumber);
                match user with
                | Some u => ret (found ++ [u], notFound)
                | None => ret (found, notFound ++ [phoneNumber])
                end)
               (fun error =>
                  console_error [ATemplate [Lit "Error searching for ";
                                            Interp (VString phoneNumber); Lit ":"];
                                 AValue (message error)] ;;
                  ret (found, notFound ++ [phoneNumber]));
      findUsers_loop rest (fst acc) (snd acc)
  end.

Definition findUsersByPhoneNumbers (phoneNumbers : list string) : M BatchResult :=
  findUsers_loop phoneNumbers [] [].

(** ** getUserDetailsByPhoneNumber (search.js, lines 82-118) *)

Definition shape_provider (provider : UserInfo) : UserInfo :=
  {| pi_uid := pi_uid provider;
     pi_displayName := pi_displayName provider;
     pi_email := pi_email provider;
     pi_phoneNumber := pi_phoneNumber provider;
     pi_photoURL := pi_photoURL provider;
     pi_providerId := pi_providerId provider |}.

Definition getUserDetailsByPhoneNumber (phoneNumber : Value) : M (option UserDetails) :=
  try_catch
    (userRecord ← findUserByPhoneNumber phoneNumber;
     match userRecord with
     | None => ret None
     | Some userRecord =>
         ret (Some
           {| d_uid := uid userRecord;
              d_email := email userRecord;
              d_phoneNumber := Sdk.phoneNumber userRecord;
              d_displayName := displayName userRecord;
              d_photoURL := photoURL userRecord;
              d_emailVerified := emailVerified userRecord;
              d_disabled := disabled userRecord;
              d_metadata :=
                {| creationTime := creationTime (metadata userRecord);
                   lastSignInTime := lastSignInTime (metadata userRecord);
                   lastRefreshTime := lastRefreshTime (metadata userRecord) |};
              d_customClaims := Js.or (customClaims userRecord) (VObject []);
              d_providerData := map shape_provider (providerData userRecord) |})
     end)
    (fun error =>
       console_error [AValue (VString "Error getting user details:"); AValue (message error)] ;;
       throw error).

(** ** The command-line block (search.js, lines 128-157) *)

Definition usage : string :=
  "
Usage: node search.js <phone_number>

Examples:
  node search.js +1234567890
  node search.js +84123456789

The phone number must be in E.164 format (starting with +).
    ".

Definition msg_success : string := "
✅ User found successfully!".
Definition msg_failure : string := "
❌ No user found with this phone number.".
Definition msg_error : string := "
❌ Error:".

(** [process.argv[2]] *)
Definition argv2 (argv : list string) : Value :=
  match argv !! 2%nat with
  | Some a => VString a
  | None => VUndefined
  end.

(** The block run when the file is the main module.  [p.then(f).catch(g)]
    is [try { f(await p) } catch (error) { g(error) }]. *)
Definition main (argv : list string) : M unit :=
  let phoneNumber := argv2 argv in
  (if negb (truthy phoneNumber)
   then console_log [AValue (VString usage)] ;; process_exit 1
   else ret tt) ;;
  try_catch
    (user ← findUserByPhoneNumber phoneNumber;
     match user with
     | Some _ => console_log [AValue (VString msg_success)]
     | None =>
         console_log [AValue (VString msg_failure)] ;;
         process_exit 1
     end)
    (fun error =>
       console_error [AValue (VString msg_error); AValue (message error)] ;;
       process_exit 1).

(** ** Observations on a run *)

(** What a computation returns, the events it adds, and the remote world
    it leaves. *)
Definition outcome {A} (m : M A) (s : State) : Outcome A := fst (m s).
Definition since (s s' : State) : list Event :=
  drop (length (trace s)) (trace s').
Definition events {A} (m : M A) (s : State) : list Event := since s (snd (m s)).
Definition final_world {A} (m : M A) (s : State) : World := world (snd (m s)).

(** [s] after the remote world became [w] and the events [evs] happened. *)
Definition extend (s : State) (w : World) (evs : list Event) : State :=
  {| world := w; trace := trace s ++ evs |}.

(** The two validation errors and the console lines of
    [findUserByPhoneNumber]. *)
Definition err_not_string : Error :=
  new_Error "Phone number must be a non-empty string".
Definition err_not_e164 : Error :=
  new_Error "Phone number must be in E.164 format (e.g., +1234567890)".
Definition log_found (u : UserRecord) : Event :=
  ConsoleLog [AValue (VString "User found:"); AValue (user_found_summary u)].
Definition log_no_user (p : Value) : Event :=
  ConsoleLog [ATemplate [Lit "No user found with phone number: "; Interp p]].
Definition log_search_error (e : Error) : Event :=
  ConsoleError [AValue (VString "Error searching for user by phone number:");
                AValue (message e)].

(** A non-empty string: what the first check lets through. *)
Definition nonempty_string (v : Value) : Prop :=
  exists str, v = VString str /\ str <> "".

(** A string whose first character is [+]. *)
Definition plus_string (v : Value) : Prop :=
  exists rest, v = VString (String "+"%char rest).

(** The arguments of the calls of [findUserByPhoneNumber] among some
    events, and those of the remote calls. *)
Definition invocations (evs : list Event) : list Value :=
  omap (fun ev => match ev with Invoke p => Some p | _ => None end) evs.
Definition sdk_calls (evs : list Event) : list Value :=
  omap (fun ev => match ev with SdkCall p => Some p | _ => None end) evs.

(** The two checks of [findUserByPhoneNumber] as one test. *)
Definition passes_validation (v : Value) : bool :=
  match v with
  | VString str => String.prefix "+" str
  | _ => false
  end.

(** The run of [findUserByPhoneNumber p] from [s] reaches the remote call. *)
Definition calls_sdk (p : Value) (s : State) : Prop :=
  p ∈ sdk_calls (events (findUserByPhoneNumber p) s).

(** The remote call of that run is made and its promise rejects with [e]. *)
Definition lookup_rejects (p : Value) (s : State) (e : Error) : Prop :=
  calls_sdk p s /\ fst (getUserByPhoneNumber p (world s)) = Rejected e.


(** The console lines of the command-line block. *)
Definition log_usage : Event := ConsoleLog [AValue (VString usage)].
Definition log_success : Event := ConsoleLog [AValue (VString msg_success)].
Definition log_failure : Event := ConsoleLog [AValue (VString msg_failure)].
Definition log_main_error (e : Error) : Event :=
  ConsoleError [AValue (VString msg_error); AValue (message e)].

(** The console line [getUserDetailsByPhoneNumber] prints before it
    rethrows. *)
Definition log_details_error (e : Error) : Event :=
  ConsoleError [AValue (VString "Error getting user details:"); AValue (message e)].

(** One provider entry carries the six fields of another. *)
Definition same_provider (q pr : UserInfo) : Prop :=
  pi_uid q = pi_uid pr /\ pi_displayName q = pi_displayName pr /\
  pi_email q = pi_email pr /\ pi_phoneNumber q = pi_phoneNumber pr /\
  pi_photoURL q = pi_photoURL pr /\ pi_providerId q = pi_providerId pr.

(** *** Observations on the batch loop *)

(** The console line the batch loop prints when it catches [e]. *)
Definition log_batch_error (p : string) (e : Error) : Event :=
  ConsoleError [ATemplate [Lit "Error searching for "; Interp (VString p); Lit ":"];
                AValue (message e)].

(** The state after one iteration of the loop of
    [findUsersByPhoneNumbers] on [p]. *)
Definition batch_step (p : string) (s : State) : State :=
  match findUserByPhoneNumber (VString p) s with
  | (Throw e, s') => extend s' (world s') [log_batch_error p e]
  | (_, s') => s'
  end.

(** How the lookup of each number goes, each from the state the loop
    reaches it in. *)
Fixpoint lookups (ps : list string) (s : State) : list (Outcome (option UserRecord)) :=
  match ps with
  | [] => []
  | p :: rest =>
      outcome (findUserByPhoneNumber (VString p)) s :: lookups rest (batch_step p s)
  end.

(** The user a lookup yielded, if it yielded one. *)
Definition user_of (o : Outcome (option UserRecord)) : option UserRecord :=
  match o with
  | Ret (Some u) => Some u
  | _ => None
  end.

(** The users yielded by a run of lookups, in order. *)
Definition users_of (os : list (Outcome (option UserRecord))) : list UserRecord :=
  omap user_of os.

(** The numbers whose lookup yielded no user, in order. *)
Fixpoint misses_of (ps : list string) (os : list (Outcome (option UserRecord))) : list string :=
  match ps, os with
  | p :: ps', o :: os' =>
      match user_of o with
      | Some _ => misses_of ps' os'
      | None => p :: misses_of ps' os'
      end
  | _, _ => []
  end.

(** *** Further observations *)

(** The console lines among some events. *)
Definition is_console (ev : Event) : bool :=
  match ev with
  | ConsoleLog _ | ConsoleError _ => true
  | SdkCall _ | Invoke _ => false
  end.
Definition console_lines (evs : list Event) : list Event := List.filter is_console evs.

(** The console line a call of [findUserByPhoneNumber p] ends with, by
    how the call ends. *)
Definition closing_line (p : Value) (o : Outcome (option UserRecord)) (line : Event) : Prop :=
  match o with
  | Ret (Some u) => line = log_found u
  | Ret None => line = log_no_user p
  | Throw e => line = log_search_error e
  | Exit _ => False
  end.

(** A lookup that yielded no user. *)
Definition no_user (o : Outcome (option UserRecord)) : bool :=
  match user_of o with
  | Some _ => false
  | None => true
  end.

(** The remote state after the SDK served the calls [calls], in order. *)
Definition served (w : World) (calls : list Value) : World :=
  foldl (fun w p => snd (getUserByPhoneNumber p w)) w calls.

End Program.

Arguments ret {World A} a s.
Arguments bind {World A B} m k s.
Arguments throw {World A} e s.
Arguments try_catch {World A} body handler s.
Arguments emit {World} ev s.
Arguments console_log {World} args s.
Arguments console_error {World} args s.
Arguments process_exit {World A} status s.
Arguments await_getUserByPhoneNumber {World} getUserByPhoneNumber p s.
Arguments startsWith {World} v pre s.
Arguments findUserByPhoneNumber {World} getUserByPhoneNumber phoneNumber s.
Arguments findUsers_loop {World} getUserByPhoneNumber phoneNumbers found notFound s.
Arguments findUsersByPhoneNumbers {World} getUserByPhoneNumber phoneNumbers s.
Arguments getUserDetailsByPhoneNumber {World} getUserByPhoneNumber phoneNumber s.
Arguments main {World} getUserByPhoneNumber argv s.
Arguments outcome {World A} m s.
Arguments since {World} s s'.
Arguments events {World A} m s.
Arguments final_world {World A} m s.
Arguments extend {World} s w evs.
Arguments calls_sdk {World} getUserByPhoneNumber p s.
Arguments lookup_rejects {World} getUserByPhoneNumber p s e.
Arguments world {World} s.
Arguments trace {World} s.
Arguments mkState {World} world trace.
Arguments batch_step {World} getUserByPhoneNumber p s.
Arguments lookups {World} getUserByPhoneNumber ps s.
Arguments served {World} getUserByPhoneNumber w calls.

End Search.

Import Search.


(** * A reference identity service

    An in-memory service to run the program on: a list of accounts, looked
    up by phone number, and a switch that makes every call fail. *)

Module Demo.

Record World : Type := mkWorld {
  accounts : list UserRecord;
  outage : bool
}.

Definition err_user_not_found : Error :=
  {| code := VString "auth/user-not-found";
     message := VString "There is no user record corresponding to the provided identifier." |}.

Definition err_internal : Error :=
  {| code := VString "auth/internal-error";
     message := VString "An internal error has occurred." |}.

Definition has_phone (p : Value) (u : UserRecord) : bool :=
  match p, Sdk.phoneNumber u with
  | VString a, VString b => String.eqb a b
  | _, _ => false
  end.

Definition getUserByPhoneNumber (p : Value) (w : World) : SdkResult * World :=
  if outage w then (Rejected err_internal, w)
  else
    match List.find (has_phone p) (accounts w) with
    | Some u => (Resolved u, w)
    | None => (Rejected err_user_not_found, w)
    end.

Definition no_times : UserMetadata :=
  {| creationTime := VString "Mon, 01 Jan 2024 00:00:00 GMT";
     lastSignInTime := VUndefined;
     lastRefreshTime := VUndefined |}.

(** An account with a phone number only: no claims, no linked provider. *)
Definition alice : UserRecord :=
  {| uid := VString "u1"; email := VUndefined; phoneNumber := VString "+15550001";
     displayName := VUndefined; photoURL := VUndefined;
     emailVerified := VBool false; disabled := VBool false;
     metadata := no_times; customClaims := VUndefined; providerData := [] |}.

(** An account with custom claims and a linked phone provider. *)
Definition bob : UserRecord :=
  {| uid := VString "u2"; email := VString "bob@example.com";
     phoneNumber := VString "+15550002";
     displayName := VString "Bob"; photoURL := VUndefined;
     emailVerified := VBool true; disabled := VBool false;
     metadata := no_times;
     customClaims := VObject [("admin", VBool true)];
     providerData :=
       [ {| pi_uid := VString "+15550002"; pi_displayName := VUndefined;
            pi_email := VUndefined; pi_phoneNumber := VString "+15550002";
            pi_photoURL := VUndefined; pi_providerId := VString "phone" |} ] |}.

Definition up : World := {| accounts := [alice; bob]; outage := false |}.
Definition down : World := {| accounts := [alice; bob]; outage := true |}.

Definition start (w : World) : State World := {| world := w; trace := [] |}.

End Demo.

(** * Properties *)

Section Properties.

Context {World : Type}.
Variable getUserByPhoneNumber : Value -> World -> SdkResult * World.

Local Abbreviation State := (State World).
Local Abbreviation M := (M World).
Local Abbreviation findUserByPhoneNumber := (findUserByPhoneNumber getUserByPhoneNumber).
Local Abbreviation findUsersByPhoneNumbers := (findUsersByPhoneNumbers getUserByPhoneNumber).
Local Abbreviation findUsers_loop := (findUsers_loop getUserByPhoneNumber).
Local Abbreviation getUserDetailsByPhoneNumber := (getUserDetailsByPhoneNumber getUserByPhoneNumber).
Local Abbreviation main := (main getUserByPhoneNumber).
Local Abbreviation calls_sdk := (calls_sdk getUserByPhoneNumber).
Local Abbreviation lookup_rejects := (lookup_rejects getUserByPhoneNumber).

#[local] Arguments Ascii.ascii_dec : simpl never.

Ltac run :=
  unfold Search.findUserByPhoneNumber, await_getUserByPhoneNumber, startsWith,
    console_log, console_error, emit, try_catch, throw, process_exit,
    mbind, M_bind, bind, mret, M_ret, ret, extend; simpl.

Lemma since_extend (s : State) w evs : since s (extend s w evs) = evs.
Proof. unfold since, extend. simpl. by rewrite drop_app_length. Qed.

Lemma extend_extend (s : State) w1 evs1 w2 evs2 :
  extend (extend s w1 evs1) w2 evs2 = extend s w2 (evs1 ++ evs2).
Proof. unfold extend. simpl. by rewrite <- app_assoc. Qed.

Lemma extend_nil (s : State) : extend s (world s) [] = s.
Proof. unfold extend. rewrite app_nil_r. by destruct s. Qed.

Lemma events_extend {A} (m : M A) s (o : Outcome A) w evs :
  m s = (o, extend s w evs) -> events m s = evs.
Proof.
  intros H. unfold events. rewrite H. apply since_extend.
Qed.

Lemma plus_string_prefix str :
  String.prefix "+" str = true <-> plus_string (VString str).
Proof.
  split.
  - destruct str as [|c rest]; simpl; [done|].
    destruct (Ascii.ascii_dec "+"%char c) as [<-|]; [|done].
    intros _. by exists rest.
  - intros [rest [= ->]]. simpl.
    destruct (Ascii.ascii_dec "+"%char "+"%char); [by destruct rest|done].
Qed.

Lemma plus_string_nonempty v : plus_string v -> nonempty_string v.
Proof. intros [rest ->]. by eexists. Qed.

(** The first check of [findUserByPhoneNumber] rejects exactly the values
    that are not non-empty strings. *)
Lemma first_check_rejects p :
  negb (truthy p) || negb (String.eqb (typeof p) "string") = true <->
  ~ nonempty_string p.
Proof.
  destruct p as [| |b|n|str|o]; simpl;
    try (rewrite ?orb_true_r; split; [intros _ [? [? _]]; discriminate|done]).
  rewrite orb_false_r, negb_involutive. split.
  - intros ->%String.eqb_eq [? [[= <-] ?]]. done.
  - intros H. apply String.eqb_eq. destruct str; [done|].
    exfalso. apply H. by eexists.
Qed.

Lemma first_check_accepts p :
  nonempty_string p ->
  negb (truthy p) || negb (String.eqb (typeof p) "string") = false.
Proof.
  intros H. apply not_true_is_false. by rewrite first_check_rejects; intros [].
Qed.

(** *** The ways a call of [findUserByPhoneNumber] can go *)

Lemma findUser_not_nonempty_string p s :
  ~ nonempty_string p ->
  findUserByPhoneNumber p s =
    (Throw err_not_string,
     extend s (world s) [Invoke p; log_search_error err_not_string]).
Proof.
  intros Hp%first_check_rejects. unfold Search.findUserByPhoneNumber.
  rewrite Hp. run. by rewrite <- app_assoc.
Qed.

Lemma findUser_not_plus_string str s :
  str <> "" -> ~ plus_string (VString str) ->
  findUserByPhoneNumber (VString str) s =
    (Throw err_not_e164,
     extend s (world s) [Invoke (VString str); log_search_error err_not_e164]).
Proof.
  intros Hne Hp. rewrite <- plus_string_prefix in Hp.
  apply not_true_is_false in Hp.
  unfold Search.findUserByPhoneNumber.
  rewrite first_check_accepts by by eexists.
  unfold startsWith, mbind, M_bind, bind, emit, try_catch, ret.
  rewrite Hp. run. by rewrite <- app_assoc.
Qed.

Lemma findUser_plus_string p s :
  plus_string p ->
  findUserByPhoneNumber p s =
    match getUserByPhoneNumber p (world s) with
    | (Resolved u, w) => (Ret (Some u), extend s w [Invoke p; SdkCall p; log_found u])
    | (Rejected e, w) =>
        if strict_eq_string (code e) "auth/user-not-found"
        then (Ret None, extend s w [Invoke p; SdkCall p; log_no_user p])
        else (Throw e, extend s w [Invoke p; SdkCall p; log_search_error e])
    end.
Proof.
  intros Hp. unfold Search.findUserByPhoneNumber.
  rewrite first_check_accepts by by apply plus_string_nonempty.
  destruct Hp as [rest ->].
  unfold startsWith, mbind, M_bind, bind, emit, try_catch, ret.
  assert (String.prefix "+" (String "+"%char rest) = true) as ->
    by (apply plus_string_prefix; by exists rest).
  run. destruct (getUserByPhoneNumber _ _) as [[u|e] w]; simpl.
  - by rewrite <- !app_assoc.
  - destruct (strict_eq_string _ _); simpl; by rewrite <- !app_assoc.
Qed.

Lemma value_cases p :
  ~ nonempty_string p \/
  (exists str, p = VString str /\ str <> "" /\ ~ plus_string p) \/
  plus_string p.
Proof.
  destruct p as [| |b|n|str|o]; try (left; intros [? [? _]]; discriminate).
  destruct str as [|c rest]; [left; by intros [? [[= <-] ?]]|].
  destruct (String.prefix "+" (String c rest)) eqn:E.
  - right; right. by apply plus_string_prefix.
  - right; left. eexists. split_and!; [done..|].
    rewrite <- plus_string_prefix. by rewrite E.
Qed.

Lemma strict_eq_string_spec v str :
  strict_eq_string v str = true <-> v = VString str.
Proof.
  destruct v; simpl; try by split.
  rewrite String.eqb_eq. split; [by intros ->|by intros [= ->]].
Qed.

(** The events, the remote calls and the final world of a call, case by
    case. *)
Lemma findUser_events_invalid p s :
  ~ plus_string p ->
  exists e,
    findUserByPhoneNumber p s =
      (Throw e, extend s (world s) [Invoke p; log_search_error e]) /\
    (e = err_not_string \/ e = err_not_e164).
Proof.
  intros Hp. destruct (value_cases p) as [H|[(str & -> & Hne & _)|H]]; [| |done].
  - exists err_not_string. split; [|by left]. by apply findUser_not_nonempty_string.
  - exists err_not_e164. split; [|by right]. by apply findUser_not_plus_string.
Qed.

Lemma findUser_events_valid p s :
  plus_string p ->
  exists o ev,
    findUserByPhoneNumber p s =
      (o, extend s (snd (getUserByPhoneNumber p (world s))) [Invoke p; SdkCall p; ev]) /\
    match ev with ConsoleLog _ | ConsoleError _ => True | _ => False end.
Proof.
  intros Hp. rewrite (findUser_plus_string p s Hp).
  destruct (getUserByPhoneNumber p (world s)) as [[u|e] w]; simpl.
  - by eexists _, _.
  - destruct (strict_eq_string _ _); by eexists _, _.
Qed.

Lemma calls_sdk_iff p s : calls_sdk p s <-> plus_string p.
Proof.
  unfold Search.calls_sdk. split.
  - intros H. destruct (value_cases p) as [Hp|[(str & -> & Hne & Hp)|Hp]]; [| |done].
    + rewrite (events_extend _ _ _ _ _ (findUser_not_nonempty_string p s Hp)) in H.
      inversion H.
    + rewrite (events_extend _ _ _ _ _ (findUser_not_plus_string str s Hne Hp)) in H.
      inversion H.
  - intros Hp. destruct (findUser_events_valid p s Hp) as (o & ev & E & _).
    rewrite (events_extend _ _ _ _ _ E). destruct ev; by constructor.
Qed.

(** ** findUserByPhoneNumber: the "not found" code and the other errors *)

(** C1. For every input and state, [findUserByPhoneNumber] returns [null]
    exactly when its remote lookup is made and rejects with an error whose
    code is ['auth/user-not-found']; when the lookup rejects with an error
    of any other code, or of no code, that same error is thrown to the
    caller. *)
Theorem findUser_null_iff_user_not_found p s :
  (outcome (findUserByPhoneNumber p) s = Ret None <->
   exists e, lookup_rejects p s e /\ code e = VString "auth/user-not-found") /\
  (forall e, lookup_rejects p s e -> code e <> VString "auth/user-not-found" ->
             outcome (findUserByPhoneNumber p) s = Throw e).
Proof.
  unfold Search.lookup_rejects, outcome. split; [split|].
  - intros H. destruct (value_cases p) as [Hp|[(str & -> & Hne & Hp)|Hp]].
    + by rewrite findUser_not_nonempty_string in H.
    + by rewrite findUser_not_plus_string in H.
    + rewrite findUser_plus_string in H by done.
      destruct (getUserByPhoneNumber p (world s)) as [[u|e] w]; [done|].
      destruct (strict_eq_string _ _) eqn:E; [|done].
      exists e. split_and!; [by apply calls_sdk_iff|done|].
      by apply strict_eq_string_spec.
  - intros (e & [Hp%calls_sdk_iff Hr] & Hc%strict_eq_string_spec).
    rewrite findUser_plus_string by done.
    destruct (getUserByPhoneNumber p (world s)) as [[u|e'] w]; simpl in *; [done|].
    injection Hr as ->. by rewrite Hc.
  - intros e [Hp%calls_sdk_iff Hr] Hc.
    rewrite findUser_plus_string by done.
    destruct (getUserByPhoneNumber p (world s)) as [[u|e'] w]; simpl in *; [done|].
    injection Hr as ->.
    destruct (strict_eq_string _ _) eqn:E; [|done].
    by apply strict_eq_string_spec in E.
Qed.

(** ** findUserByPhoneNumber: validation *)

(** C3. [findUserByPhoneNumber] validates before it calls the remote API:
    an input that is not a non-empty string makes it throw with no remote
    call made; so does a string that does not start with [+]; and for every
    string that starts with [+], whatever follows, the remote call is made,
    once, with that string. *)
Theorem findUser_validates_first p s :
  (~ nonempty_string p ->
   outcome (findUserByPhoneNumber p) s = Throw err_not_string /\
   sdk_calls (events (findUserByPhoneNumber p) s) = [] /\
   final_world (findUserByPhoneNumber p) s = world s) /\
  (forall str, p = VString str -> ~ plus_string p ->
   (exists e, outcome (findUserByPhoneNumber p) s = Throw e) /\
   sdk_calls (events (findUserByPhoneNumber p) s) = [] /\
   final_world (findUserByPhoneNumber p) s = world s) /\
  (plus_string p ->
   sdk_calls (events (findUserByPhoneNumber p) s) = [p]).
Proof.
  split_and!.
  - intros Hp. pose proof (findUser_not_nonempty_string p s Hp) as E.
    unfold outcome, final_world. rewrite (events_extend _ _ _ _ _ E), E. done.
  - intros str -> Hp. destruct (findUser_events_invalid _ s Hp) as (e & E & _).
    unfold outcome, final_world. rewrite (events_extend _ _ _ _ _ E), E. eauto.
  - intros Hp. destruct (findUser_events_valid p s Hp) as (o & ev & E & Hev).
    rewrite (events_extend _ _ _ _ _ E). by destruct ev.
Qed.

(** ** The batch loop *)

Lemma findUser_no_exit p s c : outcome (findUserByPhoneNumber p) s <> Exit c.
Proof.
  unfold outcome. destruct (value_cases p) as [Hp|[(str & -> & Hne & Hp)|Hp]].
  - by rewrite findUser_not_nonempty_string.
  - by rewrite findUser_not_plus_string.
  - rewrite findUser_plus_string by done.
    destruct (getUserByPhoneNumber p (world s)) as [[u|e] w]; [done|].
    by destruct (strict_eq_string _ _).
Qed.

(** One iteration: the body of the loop, run on [p] with the arrays
    [fd] and [nf], returns the arrays after their push. *)
Lemma batch_iteration p (fd : list UserRecord) (nf : list string) s :
  try_catch
    (user ← findUserByPhoneNumber (VString p);
     match user with
     | Some u => ret (fd ++ [u], nf)
     | None => ret (fd, nf ++ [p])
     end)
    (fun error =>
       console_error [ATemplate [Lit "Error searching for "; Interp (VString p); Lit ":"];
                      AValue (message error)] ;;
       ret (fd, nf ++ [p])) s =
  (Ret (match user_of (outcome (findUserByPhoneNumber (VString p)) s) with
        | Some u => (fd ++ [u], nf)
        | None => (fd, nf ++ [p])
        end),
   batch_step getUserByPhoneNumber p s).
Proof.
  pose proof (findUser_no_exit (VString p) s) as Hx.
  unfold batch_step, outcome, try_catch, mbind, M_bind, bind in *.
  destruct (findUserByPhoneNumber (VString p) s) as [[[u|]|e|c] s']; simpl in *; try done.
  by destruct (Hx c).
Qed.

Lemma findUsers_loop_run ps : forall fd nf s,
  findUsers_loop ps fd nf s =
    (Ret {| found := fd ++ users_of (lookups getUserByPhoneNumber ps s);
            notFound := nf ++ misses_of ps (lookups getUserByPhoneNumber ps s) |},
     foldl (fun s p => batch_step getUserByPhoneNumber p s) s ps).
Proof.
  induction ps as [|p ps IH]; intros fd nf s.
  - simpl. by rewrite !app_nil_r.
  - cbn [Search.findUsers_loop]. unfold mbind at 1, M_bind at 1, bind at 1.
    rewrite batch_iteration. unfold users_of in *.
    cbn beta iota. cbn [lookups foldl omap list_omap misses_of].
    destruct (user_of (outcome (findUserByPhoneNumber (VString p)) s)) as [u|];
      cbn [fst snd]; rewrite IH; by rewrite <- app_assoc.
Qed.

Lemma lookups_length ps : forall s, length (lookups getUserByPhoneNumber ps s) = length ps.
Proof. induction ps as [|p ps IH]; intros s; simpl; [done|by rewrite IH]. Qed.

Lemma users_misses_length ps : forall os,
  length os = length ps ->
  length (users_of os) + length (misses_of ps os) = length ps.
Proof.
  unfold users_of.
  induction ps as [|p ps IH]; intros [|o os] Hl; simpl in *; try done.
  injection Hl as Hl. specialize (IH os Hl).
  destruct (user_of o); simpl; unfold omap in IH; lia.
Qed.

Lemma misses_sublist ps : forall os, sublist (misses_of ps os) ps.
Proof.
  induction ps as [|p ps IH]; intros [|o os]; simpl;
    try apply sublist_nil_l.
  destruct (user_of o); by constructor.
Qed.

Lemma passes_validation_spec p : passes_validation p = true <-> plus_string p.
Proof.
  destruct p as [| |b|n|str|o]; simpl; try (split; [done|intros [? ?]; done]).
  apply plus_string_prefix.
Qed.

(** The events of one iteration: one call of [findUserByPhoneNumber], on
    [p]; a remote call exactly when [p] passes validation; and the batch's
    own error line when the call throws. *)
Lemma batch_step_events p s :
  exists w evs,
    batch_step getUserByPhoneNumber p s = extend s w evs /\
    invocations evs = [VString p] /\
    sdk_calls evs = List.filter passes_validation [VString p] /\
    (forall e, outcome (findUserByPhoneNumber (VString p)) s = Throw e ->
               log_batch_error p e ∈ evs).
Proof.
  unfold batch_step, outcome.
  destruct (value_cases (VString p)) as [Hp|[(str & [= <-] & Hne & Hp)|Hp]].
  - rewrite findUser_not_nonempty_string by done. rewrite extend_extend.
    eexists _, _. split; [done|]. simpl.
    destruct (String.prefix "+" p) eqn:E.
    { apply plus_string_prefix, plus_string_nonempty in E. done. }
    split_and!; [done..|]. intros e [= <-]. do 2 right. left.
  - rewrite findUser_not_plus_string by done. rewrite extend_extend.
    eexists _, _. split; [done|].
    apply (not_iff_compat (passes_validation_spec _)), not_true_is_false in Hp.
    simpl in *. rewrite Hp.
    split_and!; [done..|]. intros e [= <-]. do 2 right. left.
  - rewrite findUser_plus_string by done.
    apply passes_validation_spec in Hp. simpl in Hp |- *. rewrite Hp.
    destruct (getUserByPhoneNumber (VString p) (world s)) as [[u|e] w]; simpl.
    + by eexists _, _.
    + destruct (strict_eq_string _ _); simpl.
      * by eexists _, _.
      * rewrite extend_extend. eexists _, _. split; [done|].
        split_and!; [done..|]. intros e' [= <-]. do 3 right. left.
Qed.

Lemma batch_events ps : forall s,
  exists w evs,
    foldl (fun s p => batch_step getUserByPhoneNumber p s) s ps = extend s w evs /\
    invocations evs = map VString ps /\
    sdk_calls evs = List.filter passes_validation (map VString ps) /\
    (forall i p e,
        ps !! i = Some p ->
        lookups getUserByPhoneNumber ps s !! i = Some (Throw e) ->
        log_batch_error p e ∈ evs).
Proof.
  induction ps as [|p ps IH]; intros s; simpl.
  - exists (world s), []. rewrite extend_nil. by split_and!.
  - destruct (batch_step_events p s) as (w1 & evs1 & E1 & Hi & Hc & Hl).
    destruct (IH (batch_step getUserByPhoneNumber p s)) as (w2 & evs2 & E2 & Hi2 & Hc2 & Hl2).
    exists w2, (evs1 ++ evs2). rewrite E2, E1, extend_extend.
    split; [done|]. unfold invocations, sdk_calls in *.
    rewrite !omap_app, Hi, Hi2, Hc, Hc2. split_and!; try done.
    + simpl. by destruct (String.prefix "+" p).
    + intros [|i] q e Hq Ho; simpl in *; apply elem_of_app.
      * simplify_eq. left. by apply Hl.
      * right. rewrite E1 in Hl2. by apply (Hl2 i).
Qed.

Lemma batch_invocations ps s :
  invocations (events (findUsersByPhoneNumbers ps) s) = map VString ps.
Proof.
  destruct (batch_events ps s) as (w & evs & E & Hi & _).
  unfold Search.findUsersByPhoneNumbers.
  erewrite events_extend; [done|]. by rewrite findUsers_loop_run, E.
Qed.

(** C2. For every list of phone numbers the batch lookup calls
    [findUserByPhoneNumber] on the numbers in input order and returns
    [{found, notFound}], where [found] holds, in order, the user records of
    the numbers whose lookup yielded a user, and [notFound] holds, in
    order, every other number; their lengths add up to the length of the
    input. *)
Theorem findUsers_partitions_input ps s :
  exists res,
    outcome (findUsersByPhoneNumbers ps) s = Ret res /\
    invocations (events (findUsersByPhoneNumbers ps) s) = map VString ps /\
    length (lookups getUserByPhoneNumber ps s) = length ps /\
    found res = users_of (lookups getUserByPhoneNumber ps s) /\
    notFound res = misses_of ps (lookups getUserByPhoneNumber ps s) /\
    length (found res) + length (notFound res) = length ps /\
    sublist (notFound res) ps.
Proof.
  unfold outcome, Search.findUsersByPhoneNumbers at 1.
  rewrite findUsers_loop_run. simpl. eexists. split; [done|]. simpl.
  split_and!; try done.
  - apply batch_invocations.
  - apply lookups_length.
  - apply users_misses_length, lookups_length.
  - apply misses_sublist.
Qed.

Lemma misses_lookup ps : forall os i p o,
  ps !! i = Some p -> os !! i = Some o -> user_of o = None ->
  p ∈ misses_of ps os.
Proof.
  induction ps as [|q ps IH]; intros [|o' os] [|i] p o Hp Ho Hu;
    simpl in *; try done.
  - simplify_eq. rewrite Hu. left.
  - destruct (user_of o'); [|right]; by eapply IH.
Qed.

Lemma findUsers_returns ps s :
  findUsersByPhoneNumbers ps s =
    (Ret {| found := users_of (lookups getUserByPhoneNumber ps s);
            notFound := misses_of ps (lookups getUserByPhoneNumber ps s) |},
     foldl (fun s p => batch_step getUserByPhoneNumber p s) s ps).
Proof. unfold Search.findUsersByPhoneNumbers. by rewrite findUsers_loop_run. Qed.

(** C6. The batch lookup never throws: for every input list, every state
    and every remote behaviour it returns a [{found, notFound}] object, and
    every number whose lookup threw is in [notFound]. *)
Theorem findUsers_never_throws ps s :
  exists res,
    outcome (findUsersByPhoneNumbers ps) s = Ret res /\
    forall i p e,
      ps !! i = Some p ->
      lookups getUserByPhoneNumber ps s !! i = Some (Throw e) ->
      p ∈ notFound res.
Proof.
  unfold outcome. rewrite findUsers_returns. eexists. split; [done|]. simpl.
  intros i p e Hp Ho. by eapply misses_lookup.
Qed.

(** C4, as amended. An error thrown by the lookup of one number does not
    reach the caller of the batch lookup: the loop catches it, prints it
    with [console.error], records the number in [notFound] and goes on, and
    the batch returns normally. *)
Theorem findUsers_catches_lookup_errors ps s i p e :
  ps !! i = Some p ->
  lookups getUserByPhoneNumber ps s !! i = Some (Throw e) ->
  exists res,
    outcome (findUsersByPhoneNumbers ps) s = Ret res /\
    p ∈ notFound res /\
    log_batch_error p e ∈ events (findUsersByPhoneNumbers ps) s.
Proof.
  intros Hp Ho. destruct (batch_events ps s) as (w & evs & E & _ & _ & Hl).
  pose proof (findUsers_returns ps s) as R. rewrite E in R.
  unfold outcome. rewrite (events_extend _ _ _ _ _ R), R. simpl.
  eexists. split_and!; [done| |by eapply Hl].
  simpl. by eapply misses_lookup.
Qed.

(** C8. The batch lookup terminates on every list with a result, having
    called [findUserByPhoneNumber] exactly once per number, in order and
    with no retry, so the number of lookups is the length of the list; the
    remote calls are those of the numbers that pass validation. *)
Theorem findUsers_one_lookup_per_number ps s :
  (exists res, outcome (findUsersByPhoneNumbers ps) s = Ret res) /\
  invocations (events (findUsersByPhoneNumbers ps) s) = map VString ps /\
  length (invocations (events (findUsersByPhoneNumbers ps) s)) = length ps /\
  sdk_calls (events (findUsersByPhoneNumbers ps) s) =
    List.filter passes_validation (map VString ps).
Proof.
  destruct (batch_events ps s) as (w & evs & E & Hi & Hc & _).
  pose proof (findUsers_returns ps s) as R. rewrite E in R.
  unfold outcome. rewrite (events_extend _ _ _ _ _ R), R, Hi, Hc. simpl.
  rewrite length_map. split_and!; eauto.
Qed.

(** ** getUserDetailsByPhoneNumber *)

Lemma getUserDetails_throw p s e :
  outcome (findUserByPhoneNumber p) s = Throw e ->
  getUserDetailsByPhoneNumber p s =
    (Throw e,
     extend (snd (findUserByPhoneNumber p s))
            (final_world (findUserByPhoneNumber p) s) [log_details_error e]).
Proof.
  unfold outcome, final_world, Search.getUserDetailsByPhoneNumber,
    try_catch, mbind, M_bind, bind.
  destruct (findUserByPhoneNumber p s) as [[[u|]|e'|c] s']; simpl; try done.
  by intros [= ->].
Qed.

(** C5, as amended. [getUserDetailsByPhoneNumber] returns [null] when the
    lookup returns [null]; when the lookup returns a user record it returns
    an object whose [uid], [email], [phoneNumber], [displayName],
    [photoURL], [emailVerified] and [disabled] are those of the record,
    whose [metadata] holds the record's three time stamps, whose
    [providerData] carries, entry by entry, the six fields of the record's
    entries, and whose [customClaims] is the record's when that is truthy
    and the empty object otherwise. *)
Theorem getUserDetails_shapes_record p s :
  (outcome (findUserByPhoneNumber p) s = Ret None ->
   outcome (getUserDetailsByPhoneNumber p) s = Ret None) /\
  (forall u, outcome (findUserByPhoneNumber p) s = Ret (Some u) ->
   exists d,
     outcome (getUserDetailsByPhoneNumber p) s = Ret (Some d) /\
     d_uid d = uid u /\
     d_email d = email u /\
     d_phoneNumber d = Sdk.phoneNumber u /\
     d_displayName d = displayName u /\
     d_photoURL d = photoURL u /\
     d_emailVerified d = emailVerified u /\
     d_disabled d = disabled u /\
     creationTime (d_metadata d) = creationTime (metadata u) /\
     lastSignInTime (d_metadata d) = lastSignInTime (metadata u) /\
     lastRefreshTime (d_metadata d) = lastRefreshTime (metadata u) /\
     d_customClaims d =
       (if truthy (customClaims u) then customClaims u else VObject []) /\
     Forall2 same_provider (d_providerData d) (providerData u)).
Proof.
  unfold outcome, Search.getUserDetailsByPhoneNumber, try_catch, mbind, M_bind, bind.
  destruct (findUserByPhoneNumber p s) as [[[u'|]|e'|c] s']; simpl;
    split; try done.
  intros u [= ->]. eexists. split; [done|]. simpl. split_and!; try done.
  induction (providerData u) as [|pr l IH]; simpl; constructor; [done|apply IH].
Qed.

(** C10. When the record found has no custom claims ([customClaims] is
    [undefined], which is also what an absent property reads as, or
    [null]), the [customClaims] of the object returned is the empty
    object. *)
Theorem getUserDetails_default_claims p s u :
  outcome (findUserByPhoneNumber p) s = Ret (Some u) ->
  customClaims u = VUndefined \/ customClaims u = VNull ->
  exists d,
    outcome (getUserDetailsByPhoneNumber p) s = Ret (Some d) /\
    d_customClaims d = VObject [].
Proof.
  unfold outcome, Search.getUserDetailsByPhoneNumber, try_catch, mbind, M_bind, bind.
  destruct (findUserByPhoneNumber p s) as [[[u'|]|e'|c] s']; simpl; try done.
  intros [= ->] Hc. eexists. split; [done|]. simpl.
  unfold Js.or. by destruct Hc as [-> | ->].
Qed.

(** ** The command-line block *)

Lemma argv2_truthy argv :
  truthy (argv2 argv) = true <-> exists a, argv !! 2%nat = Some a /\ a <> "".
Proof.
  unfold argv2. destruct (argv !! 2%nat) as [a|]; simpl.
  - destruct a; simpl; split; try done.
    + by intros (? & [= <-] & ?).
    + intros _. by eexists.
  - split; [done|]. by intros (? & ? & _).
Qed.

(** C7. The command-line block reads one positional argument,
    [process.argv[2]], and nothing else of the command line.  Without it
    (or with an empty one), it prints the usage text and exits with status
    1, and no lookup is made.  With it, it exits with status 1 when the lookup returns [null]
    and when the lookup throws; when the lookup returns a user it prints
    the success line and ends without calling [process.exit]. *)
Theorem main_exit_status argv s :
  (argv !! 2%nat = None \/ argv !! 2%nat = Some "" ->
   main argv s = (Exit 1, extend s (world s) [log_usage])) /\
  (forall a, argv !! 2%nat = Some a -> a <> "" ->
   (outcome (findUserByPhoneNumber (VString a)) s = Ret None ->
    main argv s =
      (Exit 1,
       extend (snd (findUserByPhoneNumber (VString a) s))
              (final_world (findUserByPhoneNumber (VString a)) s) [log_failure])) /\
   (forall e, outcome (findUserByPhoneNumber (VString a)) s = Throw e ->
    main argv s =
      (Exit 1,
       extend (snd (findUserByPhoneNumber (VString a) s))
              (final_world (findUserByPhoneNumber (VString a)) s) [log_main_error e])) /\
   (forall u, outcome (findUserByPhoneNumber (VString a)) s = Ret (Some u) ->
    main argv s =
      (Ret tt,
       extend (snd (findUserByPhoneNumber (VString a) s))
              (final_world (findUserByPhoneNumber (VString a)) s) [log_success]))) /\
  (forall argv', argv' !! 2%nat = argv !! 2%nat -> main argv' = main argv).
Proof.
  split_and!.
  - intros [H|H]; unfold Search.main, argv2; by rewrite H.
  - intros a H Ha.
    assert (truthy (argv2 argv) = true) as Ht by (apply argv2_truthy; eauto).
    unfold Search.main. rewrite Ht. unfold argv2. rewrite H.
    unfold outcome, final_world, try_catch, mbind, M_bind, bind. simpl.
    destruct (findUserByPhoneNumber (VString a) s) as [[[u'|]|e'|c] s']; simpl;
      split_and!; try done.
    by intros e [= ->].
  - intros argv' H. unfold Search.main, argv2. by rewrite H.
Qed.

(** ** The remote store is only read *)

Section ReadOnly.

(** The user store of the identity service, as a view of its state, and
    the contract of the SDK's lookup: it does not change the store. *)
Variable Store : Type.
Variable users : World -> Store.
Hypothesis lookup_reads : forall p w, users (snd (getUserByPhoneNumber p w)) = users w.

Lemma findUser_world p s :
  final_world (findUserByPhoneNumber p) s = world s \/
  final_world (findUserByPhoneNumber p) s = snd (getUserByPhoneNumber p (world s)).
Proof.
  unfold final_world.
  destruct (value_cases p) as [Hp|[(str & -> & Hne & Hp)|Hp]].
  - left. by rewrite findUser_not_nonempty_string.
  - left. by rewrite findUser_not_plus_string.
  - right. destruct (findUser_events_valid p s Hp) as (o & ev & -> & _). done.
Qed.

Lemma findUser_keeps_users p s :
  users (final_world (findUserByPhoneNumber p) s) = users (world s).
Proof. destruct (findUser_world p s) as [-> | ->]; [done|apply lookup_reads]. Qed.

Lemma batch_step_world p s :
  world (batch_step getUserByPhoneNumber p s) =
  final_world (findUserByPhoneNumber (VString p)) s.
Proof.
  unfold batch_step, final_world.
  by destruct (findUserByPhoneNumber (VString p) s) as [[[u|]|e|c] s'].
Qed.

Lemma batch_keeps_users ps : forall s,
  users (world (foldl (fun s p => batch_step getUserByPhoneNumber p s) s ps)) =
  users (world s).
Proof.
  induction ps as [|p ps IH]; intros s; simpl; [done|].
  by rewrite IH, batch_step_world, findUser_keeps_users.
Qed.

Lemma getUserDetails_world p s :
  final_world (getUserDetailsByPhoneNumber p) s =
  final_world (findUserByPhoneNumber p) s.
Proof.
  unfold final_world, Search.getUserDetailsByPhoneNumber, try_catch, mbind, M_bind, bind.
  by destruct (findUserByPhoneNumber p s) as [[[u|]|e|c] s'].
Qed.

(** C9. None of the three exported functions changes the user store of
    the identity service: whatever they return or throw, the store after
    the call is the store before it, given that the SDK's lookup only
    reads. *)
Theorem library_keeps_user_store :
  (forall p s, users (final_world (findUserByPhoneNumber p) s) = users (world s)) /\
  (forall ps s, users (final_world (findUsersByPhoneNumbers ps) s) = users (world s)) /\
  (forall p s, users (final_world (getUserDetailsByPhoneNumber p) s) = users (world s)).
Proof.
  split_and!.
  - apply findUser_keeps_users.
  - intros ps s. unfold final_world. rewrite findUsers_returns. simpl.
    apply batch_keeps_users.
  - intros p s. rewrite getUserDetails_world. apply findUser_keeps_users.
Qed.

End ReadOnly.

(** * Further properties of the three functions and of the command-line
      block *)

Local Abbreviation served := (served getUserByPhoneNumber).

(** The shape of every run of [findUserByPhoneNumber]: its entry, the
    remote call when the argument passes validation, one console line. *)
Lemma findUser_shape p s :
  exists o line,
    findUserByPhoneNumber p s =
      (o, extend s (if passes_validation p
                    then snd (getUserByPhoneNumber p (world s)) else world s)
                   (Invoke p :: (if passes_validation p then [SdkCall p] else [])
                    ++ [line])) /\
    closing_line p o line.
Proof.
  destruct (value_cases p) as [Hp|[(str & -> & Hne & Hp)|Hp]].
  - rewrite findUser_not_nonempty_string by done.
    destruct (passes_validation p) eqn:E.
    { apply passes_validation_spec, plus_string_nonempty in E. done. }
    by eexists _, _.
  - rewrite findUser_not_plus_string by done.
    apply (not_iff_compat (passes_validation_spec _)), not_true_is_false in Hp.
    rewrite Hp. by eexists _, _.
  - rewrite findUser_plus_string by done.
    apply passes_validation_spec in Hp. rewrite Hp.
    destruct (getUserByPhoneNumber p (world s)) as [[u|e] w]; simpl.
    + by eexists _, _.
    + destruct (strict_eq_string _ _); by eexists _, _.
Qed.

(** [findUserByPhoneNumber] returns a user record exactly when its remote
    call is made and resolves, and the record returned is the one the SDK
    resolved to. *)
Theorem findUser_returns_resolved_record p s u :
  outcome (findUserByPhoneNumber p) s = Ret (Some u) <->
  calls_sdk p s /\ fst (getUserByPhoneNumber p (world s)) = Resolved u.
Proof.
  rewrite calls_sdk_iff. unfold outcome. split.
  - intros H. destruct (value_cases p) as [Hp|[(str & -> & Hne & Hp)|Hp]].
    + by rewrite findUser_not_nonempty_string in H.
    + by rewrite findUser_not_plus_string in H.
    + split; [done|]. rewrite findUser_plus_string in H by done.
      destruct (getUserByPhoneNumber p (world s)) as [[u'|e] w]; simpl in *.
      * by simplify_eq.
      * by destruct (strict_eq_string _ _).
  - intros [Hp Hr]. rewrite findUser_plus_string by done.
    destruct (getUserByPhoneNumber p (world s)) as [[u'|e] w]; simpl in *;
      by simplify_eq.
Qed.

(** The errors [findUserByPhoneNumber] throws are its two validation
    errors and the rejections of the SDK whose code is not
    ['auth/user-not-found'], and nothing else. *)
Theorem findUser_throws_only p s e :
  outcome (findUserByPhoneNumber p) s = Throw e <->
  (~ nonempty_string p /\ e = err_not_string) \/
  (nonempty_string p /\ ~ plus_string p /\ e = err_not_e164) \/
  (lookup_rejects p s e /\ code e <> VString "auth/user-not-found").
Proof.
  unfold Search.lookup_rejects. rewrite calls_sdk_iff. unfold outcome.
  destruct (value_cases p) as [Hp|[(str & -> & Hne & Hp)|Hp]].
  - rewrite findUser_not_nonempty_string by done. split.
    + intros [= <-]. by left.
    + intros [[_ ->]|[[H _]|[[H%plus_string_nonempty _] _]]]; done.
  - rewrite findUser_not_plus_string by done.
    assert (nonempty_string (VString str)) as Hn by by eexists.
    split.
    + intros [= <-]. right; left. done.
    + intros [[H _]|[(_ & _ & ->)|[[H _] _]]]; done.
  - rewrite findUser_plus_string by done.
    pose proof (plus_string_nonempty _ Hp) as Hn.
    destruct (getUserByPhoneNumber p (world s)) as [[u|e'] w]; simpl.
    + split; [done|]. intros [[H _]|[(_ & H & _)|[[_ H] _]]]; done.
    + destruct (strict_eq_string _ _) eqn:E.
      * apply strict_eq_string_spec in E. split; [done|].
        intros [[H _]|[(_ & H & _)|[[_ H] Hc]]]; try done. by simplify_eq.
      * split.
        -- intros [= <-]. do 2 right. split; [done|].
           intros Hc%strict_eq_string_spec. congruence.
        -- intros [[H _]|[(_ & H & _)|[[_ H] Hc]]]; try done. by simplify_eq.
Qed.

(** Every call of [findUserByPhoneNumber] prints exactly one console
    line: the record summary when it returns a user, the "no user" line
    when it returns [null], and a [console.error] line with the message of
    the error when it throws. *)
Theorem findUser_prints_one_line p s :
  exists line,
    console_lines (events (findUserByPhoneNumber p) s) = [line] /\
    closing_line p (outcome (findUserByPhoneNumber p) s) line.
Proof.
  destruct (findUser_shape p s) as (o & line & E & Hl).
  exists line. unfold outcome. rewrite (events_extend _ _ _ _ _ E), E.
  split; [|done]. unfold console_lines. simpl.
  rewrite List.filter_app. simpl.
  assert (is_console line = true) as ->.
  { destruct o as [[u|]|e|c]; simpl in Hl; by subst. }
  by destruct (passes_validation p).
Qed.

(** None of the three exported functions ends the process: whatever the
    input and the remote behaviour, they return or throw. *)
Theorem library_never_exits :
  (forall p s c, outcome (findUserByPhoneNumber p) s <> Exit c) /\
  (forall ps s c, outcome (findUsersByPhoneNumbers ps) s <> Exit c) /\
  (forall p s c, outcome (getUserDetailsByPhoneNumber p) s <> Exit c).
Proof.
  split_and!.
  - apply findUser_no_exit.
  - intros ps s c. unfold outcome. by rewrite findUsers_returns.
  - intros p s c. pose proof (findUser_no_exit p s) as Hx.
    unfold outcome, Search.getUserDetailsByPhoneNumber, try_catch, mbind, M_bind, bind in *.
    destruct (findUserByPhoneNumber p s) as [[[u|]|e|c'] s']; simpl in *; try done.
    by destruct (Hx c').
Qed.

(** A run of [findUserByPhoneNumber] reads the remote world only: from
    two states with the same world it ends the same way, adds the same
    events and leaves the same world. *)
Lemma findUser_world_only p s s' :
  world s = world s' ->
  exists o w evs,
    findUserByPhoneNumber p s = (o, extend s w evs) /\
    findUserByPhoneNumber p s' = (o, extend s' w evs).
Proof.
  intros Hw. destruct (value_cases p) as [Hp|[(str & -> & Hne & Hp)|Hp]].
  - rewrite !findUser_not_nonempty_string by done. rewrite Hw. by eexists _, _, _.
  - rewrite !findUser_not_plus_string by done. rewrite Hw. by eexists _, _, _.
  - rewrite !findUser_plus_string by done. rewrite Hw.
    destruct (getUserByPhoneNumber p (world s')) as [[u|e] w]; simpl.
    + by eexists _, _, _.
    + destruct (strict_eq_string _ _); by eexists _, _, _.
Qed.

(** When the lookup returns, [getUserDetailsByPhoneNumber] returns from
    the state the lookup left, [null] for [null] and an object for a
    record. *)
Lemma getUserDetails_ret p s r :
  outcome (findUserByPhoneNumber p) s = Ret r ->
  exists r',
    getUserDetailsByPhoneNumber p s = (Ret r', snd (findUserByPhoneNumber p s)) /\
    (r' = None <-> r = None).
Proof.
  unfold outcome, Search.getUserDetailsByPhoneNumber, try_catch, mbind, M_bind, bind.
  destruct (findUserByPhoneNumber p s) as [[[u|]|e|c] s']; simpl; try done;
    intros [= <-]; by eexists.
Qed.

(** [getUserDetailsByPhoneNumber] throws exactly the errors its lookup
    throws, unchanged, after printing one more [console.error] line; so
    an error is printed twice, by the lookup and by the wrapper.  When the
    lookup returns, the wrapper prints nothing of its own. *)
Theorem getUserDetails_rethrows p s :
  (forall e, outcome (getUserDetailsByPhoneNumber p) s = Throw e <->
             outcome (findUserByPhoneNumber p) s = Throw e) /\
  (forall e, outcome (findUserByPhoneNumber p) s = Throw e ->
             events (getUserDetailsByPhoneNumber p) s =
               events (findUserByPhoneNumber p) s ++ [log_details_error e] /\
             console_lines (events (getUserDetailsByPhoneNumber p) s) =
               [log_search_error e; log_details_error e]) /\
  (forall r, outcome (findUserByPhoneNumber p) s = Ret r ->
             events (getUserDetailsByPhoneNumber p) s =
               events (findUserByPhoneNumber p) s).
Proof.
  destruct (findUser_shape p s) as (o & line & E & Hl).
  destruct o as [r|e'|c]; [| |done].
  - destruct (getUserDetails_ret p s r) as (r' & R & _);
      [unfold outcome; by rewrite E|].
    unfold outcome, events. rewrite R, E. simpl.
    split_and!; [intros e; by split|done..].
  - pose proof (getUserDetails_throw p s e') as R.
    unfold outcome, events, final_world in *. rewrite E in *. simpl in R, Hl.
    specialize (R eq_refl). rewrite extend_extend in R. rewrite R. simpl.
    rewrite !since_extend. subst line.
    split_and!; [intros e; split; by intros [= ->]| |done].
    intros e [= <-]. split; [done|]. unfold console_lines. simpl.
    rewrite !List.filter_app. simpl. by destruct (passes_validation p).
Qed.

(** [getUserDetailsByPhoneNumber] looks the number up once, through
    [findUserByPhoneNumber], and makes the remote calls of that lookup and
    no other; it returns [null] exactly when the lookup does, and an
    object exactly when the lookup returns a record. *)
Theorem getUserDetails_one_lookup p s :
  invocations (events (getUserDetailsByPhoneNumber p) s) = [p] /\
  sdk_calls (events (getUserDetailsByPhoneNumber p) s) =
    List.filter passes_validation [p] /\
  final_world (getUserDetailsByPhoneNumber p) s =
    final_world (findUserByPhoneNumber p) s /\
  (outcome (getUserDetailsByPhoneNumber p) s = Ret None <->
   outcome (findUserByPhoneNumber p) s = Ret None) /\
  ((exists d, outcome (getUserDetailsByPhoneNumber p) s = Ret (Some d)) <->
   (exists u, outcome (findUserByPhoneNumber p) s = Ret (Some u))).
Proof.
  destruct (findUser_shape p s) as (o & line & E & Hl).
  assert (invocations (Invoke p :: (if passes_validation p then [SdkCall p] else [])
                       ++ [line]) = [p] /\
          sdk_calls (Invoke p :: (if passes_validation p then [SdkCall p] else [])
                     ++ [line]) = List.filter passes_validation [p]) as [Hi Hc].
  { assert (is_console line = true) as Hk
      by (destruct o as [[u|]|e|c]; simpl in Hl; by subst).
    unfold invocations, sdk_calls. simpl. rewrite !omap_app.
    destruct line; try done; by destruct (passes_validation p). }
  destruct o as [r|e|c]; [| |done].
  - destruct (getUserDetails_ret p s r) as (r' & R & Hn);
      [unfold outcome; by rewrite E|].
    unfold outcome, events, final_world. rewrite R, E. cbn [fst snd].
    rewrite since_extend. split_and!; [done..| |].
    + split; intros [= H]; f_equal; by apply Hn.
    + destruct r as [u|], r' as [d|]; split; intros [? [= ?]]; eauto;
        exfalso; destruct Hn as [H1 H2]; by (specialize (H1 eq_refl) || specialize (H2 eq_refl)).
  - pose proof (getUserDetails_throw p s e) as R.
    unfold outcome, events, final_world in *. rewrite E in *. cbn [fst snd] in *.
    specialize (R eq_refl). rewrite extend_extend in R. rewrite R. cbn [fst snd].
    rewrite since_extend. unfold invocations, sdk_calls in *.
    rewrite !omap_app, Hi, Hc. simpl. rewrite !app_nil_r.
    split_and!; try done; split; by intros [? ?].
Qed.

(** ** More on the batch loop *)

Lemma lookups_app ps qs : forall s,
  lookups getUserByPhoneNumber (ps ++ qs) s =
    lookups getUserByPhoneNumber ps s ++
    lookups getUserByPhoneNumber qs
      (foldl (fun s p => batch_step getUserByPhoneNumber p s) s ps).
Proof.
  induction ps as [|p ps IH]; intros s; simpl; [done|]. by rewrite IH.
Qed.

Lemma misses_of_app ps qs : forall os os',
  length os = length ps ->
  misses_of (ps ++ qs) (os ++ os') = misses_of ps os ++ misses_of qs os'.
Proof.
  induction ps as [|p ps IH]; intros [|o os] os' Hl; simpl in *; try done.
  injection Hl as Hl. rewrite (IH os os' Hl). by destruct (user_of o).
Qed.

(** The batch lookup composes: looking up [ps ++ qs] is looking up [ps]
    and then, from the state that leaves, [qs]; the two [found] lists and
    the two [notFound] lists are appended. *)
Theorem findUsers_app ps qs s :
  exists r1 s1 r2,
    findUsersByPhoneNumbers ps s = (Ret r1, s1) /\
    outcome (findUsersByPhoneNumbers qs) s1 = Ret r2 /\
    outcome (findUsersByPhoneNumbers (ps ++ qs)) s =
      Ret {| found := found r1 ++ found r2;
             notFound := notFound r1 ++ notFound r2 |} /\
    snd (findUsersByPhoneNumbers (ps ++ qs) s) =
      snd (findUsersByPhoneNumbers qs s1).
Proof.
  unfold outcome. rewrite !findUsers_returns. eexists _, _, _.
  split; [done|]. rewrite !findUsers_returns. simpl. split; [done|].
  rewrite lookups_app, foldl_app. unfold users_of.
  by rewrite omap_app, misses_of_app by apply lookups_length.
Qed.

Lemma lookups_lookup ps : forall s i p,
  ps !! i = Some p ->
  exists s', lookups getUserByPhoneNumber ps s !! i =
               Some (outcome (findUserByPhoneNumber (VString p)) s').
Proof.
  induction ps as [|q ps IH]; intros s [|i] p H; simpl in *; try done.
  - simplify_eq. by eexists.
  - by apply IH.
Qed.

(** A number that fails validation (empty, or without a leading [+]) is
    always reported in [notFound], whatever the remote service would
    answer for it. *)
Theorem findUsers_reports_invalid_numbers ps s p :
  p ∈ ps -> passes_validation (VString p) = false ->
  exists res,
    outcome (findUsersByPhoneNumbers ps) s = Ret res /\ p ∈ notFound res.
Proof.
  intros [i Hi]%list_elem_of_lookup Hp.
  unfold outcome. rewrite findUsers_returns. eexists. split; [done|]. simpl.
  destruct (lookups_lookup ps s i p Hi) as [s' Ho].
  eapply misses_lookup; [done..|].
  assert (~ plus_string (VString p)) as Hn.
  { intros H%passes_validation_spec. congruence. }
  destruct (findUser_events_invalid (VString p) s' Hn) as (e & E & _).
  unfold outcome. by rewrite E.
Qed.

(** The remote state after a call is the state the SDK reaches by serving
    the remote calls of the numbers that pass validation, in order: the
    functions touch the service in no other way. *)
Theorem remote_state_by_lookups :
  (forall p s,
      final_world (findUserByPhoneNumber p) s =
        served (world s) (List.filter passes_validation [p])) /\
  (forall ps s,
      final_world (findUsersByPhoneNumbers ps) s =
        served (world s) (List.filter passes_validation (map VString ps))).
Proof.
  assert (forall p s,
      final_world (findUserByPhoneNumber p) s =
        served (world s) (List.filter passes_validation [p])) as H1.
  { intros p s. destruct (findUser_shape p s) as (o & line & E & _).
    unfold final_world. rewrite E. simpl. by destruct (passes_validation p). }
  split; [exact H1|].
  intros ps s. unfold final_world. rewrite findUsers_returns. cbn [snd].
  revert s. induction ps as [|p ps IH]; intros s; [done|].
  cbn [foldl map]. rewrite IH, batch_step_world, H1.
  unfold Search.served. simpl. by destruct (String.prefix "+" p).
Qed.

Section Stable.

(** A service whose lookup leaves its state as it was. *)
Hypothesis lookup_keeps_world : forall p w, snd (getUserByPhoneNumber p w) = w.

Lemma batch_step_keeps_world p s :
  world (batch_step getUserByPhoneNumber p s) = world s.
Proof.
  rewrite batch_step_world.
  destruct (findUser_world (VString p) s) as [-> | ->]; [done|].
  apply lookup_keeps_world.
Qed.

Lemma lookups_stable ps : forall s s0,
  world s = world s0 ->
  lookups getUserByPhoneNumber ps s =
    map (fun p => outcome (findUserByPhoneNumber (VString p)) s0) ps.
Proof.
  induction ps as [|p ps IH]; intros s s0 Hw; simpl; [done|].
  destruct (findUser_world_only (VString p) s s0 Hw) as (o & w & evs & E & E0).
  f_equal; [unfold outcome; by rewrite E, E0|].
  apply IH. by rewrite batch_step_keeps_world.
Qed.

(** Against a service whose lookup leaves its state unchanged, the batch
    gives every number the answer a lookup of that number alone would
    get: [found] holds the users of those single lookups and [notFound]
    the numbers whose single lookup yields none. *)
Theorem findUsers_as_single_lookups ps s :
  exists res,
    outcome (findUsersByPhoneNumbers ps) s = Ret res /\
    found res =
      omap (fun p => user_of (outcome (findUserByPhoneNumber (VString p)) s)) ps /\
    notFound res =
      List.filter (fun p => no_user (outcome (findUserByPhoneNumber (VString p)) s)) ps.
Proof.
  unfold outcome at 1. rewrite findUsers_returns. eexists. split; [done|]. simpl.
  rewrite (lookups_stable ps s s eq_refl). unfold users_of.
  split.
  - induction ps as [|p ps IH]; simpl; [done|].
    destruct (user_of (outcome (findUserByPhoneNumber (VString p)) s));
      [f_equal|]; exact IH.
  - induction ps as [|p ps IH]; simpl; [done|].
    unfold no_user at 1.
    destruct (user_of (outcome (findUserByPhoneNumber (VString p)) s));
      [|f_equal]; exact IH.
Qed.

End Stable.

(** ** More on the command-line block *)

Lemma main_run argv s :
  truthy (argv2 argv) = true ->
  exists o w evs,
    findUserByPhoneNumber (argv2 argv) s = (o, extend s w evs) /\
    main argv s =
      match o with
      | Ret (Some _) => (Ret tt, extend s w (evs ++ [log_success]))
      | Ret None => (Exit 1, extend s w (evs ++ [log_failure]))
      | Throw e => (Exit 1, extend s w (evs ++ [log_main_error e]))
      | Exit c => (Exit c, extend s w evs)
      end.
Proof.
  intros Ht. destruct (findUser_shape (argv2 argv) s) as (o & line & E & _).
  eexists o, _, _. split; [exact E|].
  unfold Search.main. rewrite Ht.
  unfold try_catch, mbind, M_bind, bind. cbn [negb]. unfold ret at 1. rewrite E.
  destruct o as [[u|]|e|c];
    unfold extend, process_exit, console_log, console_error, emit, ret; simpl;
    rewrite <- ?(app_assoc (trace s)); reflexivity.
Qed.

Lemma findUser_falsy_throws p s :
  truthy p = false -> outcome (findUserByPhoneNumber p) s = Throw err_not_string.
Proof.
  intros Ht. unfold outcome. rewrite findUser_not_nonempty_string; [done|].
  intros (str & -> & Hne). simpl in Ht. destruct str; done.
Qed.

(** The command-line block never lets an error escape and never exits
    with a status other than 1: it either ends normally or exits with 1,
    and it ends normally exactly when the lookup of [process.argv[2]]
    returns a user. *)
Theorem main_never_throws argv s :
  (outcome (main argv) s = Ret tt \/ outcome (main argv) s = Exit 1) /\
  (outcome (main argv) s = Ret tt <->
   exists u, outcome (findUserByPhoneNumber (argv2 argv)) s = Ret (Some u)).
Proof.
  destruct (truthy (argv2 argv)) eqn:Ht.
  - destruct (main_run argv s Ht) as (o & w & evs & E & R).
    pose proof (findUser_no_exit (argv2 argv) s) as Hx.
    unfold outcome in *. rewrite E in *. rewrite R.
    destruct o as [[u|]|e|c]; simpl in *.
    + split; [by left|]. split; eauto.
    + split; [by right|]. split; [done|]. by intros [? ?].
    + split; [by right|]. split; [done|]. by intros [? ?].
    + by destruct (Hx c).
  - rewrite (findUser_falsy_throws _ s Ht).
    unfold outcome, Search.main. rewrite Ht. simpl.
    split; [by right|]. split; [done|]. by intros [? ?].
Qed.

(** The command-line block looks up at most one number: none when
    [process.argv[2]] is missing or empty, and otherwise that argument,
    once, with a remote call exactly when it starts with [+]. *)
Theorem main_one_lookup argv s :
  invocations (events (main argv) s) =
    (if truthy (argv2 argv) then [argv2 argv] else []) /\
  sdk_calls (events (main argv) s) = List.filter passes_validation [argv2 argv] /\
  final_world (main argv) s =
    served (world s) (List.filter passes_validation [argv2 argv]).
Proof.
  destruct (truthy (argv2 argv)) eqn:Ht.
  - destruct (findUser_shape (argv2 argv) s) as (o & line & E & Hl).
    destruct (main_run argv s Ht) as (o' & w & evs & E' & R).
    rewrite E in E'. injection E' as <- <- Hevs%app_inv_head.
    assert (is_console line = true) as Hk
      by (destruct o as [[u|]|e|c]; simpl in Hl; by subst).
    assert (exists last, main argv s = (fst (main argv s), extend s
              (if passes_validation (argv2 argv)
               then snd (getUserByPhoneNumber (argv2 argv) (world s)) else world s)
              (evs ++ [last])) /\ is_console last = true) as (last & R' & Hk').
    { rewrite R. destruct o as [[u|]|e|c]; simpl in *; try done; by eexists. }
    unfold final_world. rewrite (events_extend _ _ _ _ _ R'), R'. cbn [snd].
    subst evs. unfold invocations, sdk_calls, Search.served.
    rewrite !omap_app. simpl. rewrite !omap_app. simpl.
    destruct line, last; try done; by destruct (passes_validation (argv2 argv)).
  - assert (passes_validation (argv2 argv) = false) as Hp.
    { destruct (argv2 argv) as [| | | |str|]; try done.
      simpl in Ht. by destruct str. }
    assert (main argv s = (Exit 1, extend s (world s) [log_usage])) as R.
    { unfold Search.main. by rewrite Ht. }
    unfold final_world. rewrite (events_extend _ _ _ _ _ R), R. simpl.
    by rewrite Hp.
Qed.

End Properties.

(** * The program on the reference service *)

Module DemoRuns.

Import Demo.

Local Abbreviation findUser := (findUserByPhoneNumber Demo.getUserByPhoneNumber).
Local Abbreviation findUsers := (findUsersByPhoneNumbers Demo.getUserByPhoneNumber).
Local Abbreviation getUserDetails := (getUserDetailsByPhoneNumber Demo.getUserByPhoneNumber).

(** A number on file, a number not on file, a number without [+], a value
    that is not a string. *)
Example findUser_on_file :
  findUser (VString "+15550002") (start up) =
    (Ret (Some bob),
     {| world := up;
        trace := [Invoke (VString "+15550002"); SdkCall (VString "+15550002");
                  log_found bob] |}).
Proof. reflexivity. Qed.

Example findUser_not_on_file :
  findUser (VString "+15559999") (start up) =
    (Ret None,
     {| world := up;
        trace := [Invoke (VString "+15559999"); SdkCall (VString "+15559999");
                  log_no_user (VString "+15559999")] |}).
Proof. reflexivity. Qed.

Example findUser_no_plus :
  findUser (VString "15550002") (start up) =
    (Throw err_not_e164,
     {| world := up;
        trace := [Invoke (VString "15550002"); log_search_error err_not_e164] |}).
Proof. reflexivity. Qed.

Example findUser_number :
  findUser (VNumber 15550002%float) (start up) =
    (Throw err_not_string,
     {| world := up;
        trace := [Invoke (VNumber 15550002%float); log_search_error err_not_string] |}).
Proof. reflexivity. Qed.

Example findUsers_mixed :
  outcome (findUsers ["+15550002"; "15550001"; "+15559999"; "+15550001"]) (start up) =
    Ret {| found := [bob; alice]; notFound := ["15550001"; "+15559999"] |}.
Proof. reflexivity. Qed.

Example main_no_argument :
  main Demo.getUserByPhoneNumber ["node"; "search.js"] (start up) =
    (Exit 1, {| world := up; trace := [log_usage] |}).
Proof. reflexivity. Qed.

Example main_found :
  outcome (main Demo.getUserByPhoneNumber ["node"; "search.js"; "+15550001"; "extra"])
          (start up) = Ret tt.
Proof. reflexivity. Qed.

Example main_not_found :
  outcome (main Demo.getUserByPhoneNumber ["node"; "search.js"; "+15559999"])
          (start up) = Exit 1.
Proof. reflexivity. Qed.

Example main_outage :
  outcome (main Demo.getUserByPhoneNumber ["node"; "search.js"; "+15550001"])
          (start down) = Exit 1.
Proof. reflexivity. Qed.

(** C4, as stated, fails: during an outage the lookup of a number throws
    an error whose code is not ['auth/user-not-found'], and the batch
    lookup on that number returns, with the number in [notFound], instead
    of throwing that error. *)
Lemma findUsers_swallows_outage :
  outcome (findUser (VString "+15550001")) (start down) = Throw err_internal /\
  code err_internal <> VString "auth/user-not-found" /\
  outcome (findUsers ["+15550001"]) (start down) =
    Ret {| found := []; notFound := ["+15550001"] |} /\
  outcome (findUsers ["+15550001"]) (start down) <> Throw err_internal.
Proof. split_and!; [reflexivity|discriminate|reflexivity|discriminate]. Qed.

(** The amended C4 at the outage: the hypotheses hold for the one number
    of the list. *)
Lemma findUsers_catches_lookup_errors_witness :
  ["+15550001"] !! 0%nat = Some "+15550001" /\
  lookups Demo.getUserByPhoneNumber ["+15550001"] (start down) !! 0%nat =
    Some (Throw err_internal) /\
  exists res,
    outcome (findUsers ["+15550001"]) (start down) = Ret res /\
    "+15550001" ∈ notFound res /\
    log_batch_error "+15550001" err_internal ∈
      events (findUsers ["+15550001"]) (start down).
Proof.
  split; [reflexivity|]. split; [reflexivity|].
  apply (findUsers_catches_lookup_errors Demo.getUserByPhoneNumber
           ["+15550001"] (start down) 0 "+15550001" err_internal);
    reflexivity.
Defined.

(** C5, as stated, fails: the record of the first account has no custom
    claims, and the object returned for it has [customClaims] equal to the
    empty object, which is not the record's value. *)
Lemma getUserDetails_claims_not_copied :
  outcome (findUser (VString "+15550001")) (start up) = Ret (Some alice) /\
  exists d,
    outcome (getUserDetails (VString "+15550001")) (start up) = Ret (Some d) /\
    d_customClaims d = VObject [] /\
    d_customClaims d <> customClaims alice.
Proof.
  split; [reflexivity|]. eexists. split; [reflexivity|]. simpl.
  split; [reflexivity|discriminate].
Qed.

(** C10 at the first account, whose record has no custom claims. *)
Lemma getUserDetails_default_claims_witness :
  outcome (findUser (VString "+15550001")) (start up) = Ret (Some alice) /\
  (customClaims alice = VUndefined \/ customClaims alice = VNull) /\
  exists d,
    outcome (getUserDetails (VString "+15550001")) (start up) = Ret (Some d) /\
    d_customClaims d = VObject [].
Proof.
  split; [reflexivity|]. split; [left; reflexivity|].
  apply (getUserDetails_default_claims Demo.getUserByPhoneNumber
           (VString "+15550001") (start up) alice); [reflexivity|left; reflexivity].
Defined.

Lemma demo_lookup_reads p w : accounts (snd (Demo.getUserByPhoneNumber p w)) = accounts w.
Proof.
  unfold Demo.getUserByPhoneNumber.
  destruct (outage w); [done|]. by destruct (List.find _ _).
Qed.

(** C9 on the reference service, whose lookup only reads its accounts. *)
Lemma library_keeps_user_store_witness :
  (forall p w, accounts (snd (Demo.getUserByPhoneNumber p w)) = accounts w) /\
  (forall p s, accounts (final_world (findUser p) s) = accounts (world s)) /\
  (forall ps s, accounts (final_world (findUsers ps) s) = accounts (world s)) /\
  (forall p s, accounts (final_world (getUserDetails p) s) = accounts (world s)).
Proof.
  split; [exact demo_lookup_reads|].
  exact (library_keeps_user_store Demo.getUserByPhoneNumber
           (list UserRecord) accounts demo_lookup_reads).
Defined.

(** C1 on the reference service: a number not on file, and a lookup
    during an outage. *)
Lemma findUser_null_iff_user_not_found_witness :
  (exists e,
      lookup_rejects Demo.getUserByPhoneNumber (VString "+15559999") (start up) e /\
      code e = VString "auth/user-not-found") /\
  lookup_rejects Demo.getUserByPhoneNumber (VString "+15550001") (start down) err_internal /\
  outcome (findUser (VString "+15550001")) (start down) = Throw err_internal.
Proof.
  assert (lookup_rejects Demo.getUserByPhoneNumber (VString "+15550001") (start down)
            err_internal) as R.
  { split; [|reflexivity]. unfold calls_sdk. vm_compute. left. }
  split_and!; [|exact R|].
  - apply (proj1 (proj1 (findUser_null_iff_user_not_found Demo.getUserByPhoneNumber
                           (VString "+15559999") (start up)))).
    reflexivity.
  - apply (proj2 (findUser_null_iff_user_not_found Demo.getUserByPhoneNumber
                    (VString "+15550001") (start down)) err_internal R).
    discriminate.
Defined.

(** C3 at [null], at a string without [+] and at a string with it. *)
Lemma findUser_validates_first_witness :
  (~ nonempty_string VNull /\
   outcome (findUser VNull) (start up) = Throw err_not_string) /\
  (~ plus_string (VString "15550002") /\
   exists e, outcome (findUser (VString "15550002")) (start up) = Throw e) /\
  (plus_string (VString "+1") /\
   sdk_calls (events (findUser (VString "+1")) (start up)) = [VString "+1"]).
Proof.
  assert (~ nonempty_string VNull) as H1 by (intros [? [? _]]; discriminate).
  assert (~ plus_string (VString "15550002")) as H2 by (intros [? ?]; discriminate).
  assert (plus_string (VString "+1")) as H3 by (by exists "1").
  pose proof (findUser_validates_first Demo.getUserByPhoneNumber VNull (start up))
    as (T1 & _ & _).
  pose proof (findUser_validates_first Demo.getUserByPhoneNumber (VString "15550002")
                (start up)) as (_ & T2 & _).
  pose proof (findUser_validates_first Demo.getUserByPhoneNumber (VString "+1")
                (start up)) as (_ & _ & T3).
  split_and!; [exact H1|exact (proj1 (T1 H1))|exact H2|
               exact (proj1 (T2 _ eq_refl H2))|exact H3|exact (T3 H3)].
Defined.

(** The amended C5 at a number not on file and at the second account. *)
Lemma getUserDetails_shapes_record_witness :
  (outcome (findUser (VString "+15559999")) (start up) = Ret None /\
   outcome (getUserDetails (VString "+15559999")) (start up) = Ret None) /\
  (outcome (findUser (VString "+15550002")) (start up) = Ret (Some bob) /\
   exists d,
     outcome (getUserDetails (VString "+15550002")) (start up) = Ret (Some d) /\
     d_uid d = VString "u2" /\
     d_customClaims d = VObject [("admin", VBool true)] /\
     Forall2 same_provider (d_providerData d) (providerData bob)).
Proof.
  pose proof (getUserDetails_shapes_record Demo.getUserByPhoneNumber
                (VString "+15559999") (start up)) as [T1 _].
  pose proof (getUserDetails_shapes_record Demo.getUserByPhoneNumber
                (VString "+15550002") (start up)) as [_ T2].
  split; [split; [reflexivity|exact (T1 eq_refl)]|].
  split; [reflexivity|].
  destruct (T2 bob eq_refl) as (d & E & Hu & _ & _ & _ & _ & _ & _ & _ & _ & _ & Hc & Hp).
  exists d. split_and!; [exact E|exact Hu|exact Hc|exact Hp].
Defined.

(** C7 on four command lines: no argument, a number not on file, an
    outage, a number on file. *)
Lemma main_exit_status_witness :
  main Demo.getUserByPhoneNumber ["node"; "search.js"] (start up) =
    (Exit 1, extend (start up) up [log_usage]) /\
  outcome (main Demo.getUserByPhoneNumber ["node"; "search.js"; "+15559999"]) (start up) =
    Exit 1 /\
  outcome (main Demo.getUserByPhoneNumber ["node"; "search.js"; "+15550001"]) (start down) =
    Exit 1 /\
  outcome (main Demo.getUserByPhoneNumber ["node"; "search.js"; "+15550001"]) (start up) =
    Ret tt.
Proof.
  pose proof (main_exit_status Demo.getUserByPhoneNumber ["node"; "search.js"] (start up))
    as (T1 & _ & _).
  pose proof (main_exit_status Demo.getUserByPhoneNumber
                ["node"; "search.js"; "+15559999"] (start up)) as (_ & T2 & _).
  pose proof (main_exit_status Demo.getUserByPhoneNumber
                ["node"; "search.js"; "+15550001"] (start down)) as (_ & T3 & _).
  pose proof (main_exit_status Demo.getUserByPhoneNumber
                ["node"; "search.js"; "+15550001"] (start up)) as (_ & T4 & _).
  split_and!.
  - exact (T1 (or_introl eq_refl)).
  - destruct (T2 "+15559999" eq_refl) as (T & _); [discriminate|].
    unfold outcome. by rewrite (T eq_refl).
  - destruct (T3 "+15550001" eq_refl) as (_ & T & _); [discriminate|].
    unfold outcome. by rewrite (T err_internal eq_refl).
  - destruct (T4 "+15550001" eq_refl) as (_ & _ & T); [discriminate|].
    unfold outcome. by rewrite (T alice eq_refl).
Defined.

(** A number on file written without its [+], in a batch. *)
Lemma findUsers_reports_invalid_numbers_witness :
  "15550001" ∈ ["+15550002"; "15550001"] /\
  passes_validation (VString "15550001") = false /\
  exists res,
    outcome (findUsers ["+15550002"; "15550001"]) (start up) = Ret res /\
    "15550001" ∈ notFound res.
Proof.
  assert ("15550001" ∈ ["+15550002"; "15550001"]) as H by (right; left).
  split; [exact H|]. split; [reflexivity|].
  apply (findUsers_reports_invalid_numbers Demo.getUserByPhoneNumber
           ["+15550002"; "15550001"] (start up) "15550001" H).
  reflexivity.
Defined.

Lemma demo_lookup_keeps_world p w : snd (Demo.getUserByPhoneNumber p w) = w.
Proof.
  unfold Demo.getUserByPhoneNumber.
  destruct (outage w); [done|]. by destruct (List.find _ _).
Qed.

(** The reference service keeps its state, so a batch on it answers as
    single lookups do. *)
Lemma findUsers_as_single_lookups_witness :
  (forall p w, snd (Demo.getUserByPhoneNumber p w) = w) /\
  exists res,
    outcome (findUsers ["+15550002"; "+15559999"; "+15550001"]) (start up) = Ret res /\
    found res =
      omap (fun p => user_of (outcome (findUser (VString p)) (start up)))
           ["+15550002"; "+15559999"; "+15550001"] /\
    notFound res =
      List.filter (fun p => no_user (outcome (findUser (VString p)) (start up)))
                  ["+15550002"; "+15559999"; "+15550001"].
Proof.
  split; [exact demo_lookup_keeps_world|].
  exact (findUsers_as_single_lookups Demo.getUserByPhoneNumber demo_lookup_keeps_world
           ["+15550002"; "+15559999"; "+15550001"] (start up)).
Defined.

End DemoRuns.
